(** * Logging and result helpers of the container entrypoint

    A shallow embedding of [docker_entrypoint/_libs/utility.py]: the
    functions [log_result], [log_error], [get_support_message],
    [_get_support_message], [log_class_properties] and
    [convert_code_to_result], together with the parts of Python and of the
    [on_rails] package they run on, and the formatter
    [class_properties_to_str] that the tests call.

    Python objects are a small universe of values, raised exceptions and
    calls to the logger are explicit: a computation takes the list of log
    records written so far and gives back either a value or a raised
    exception, and the extended list. *)

From Stdlib Require Import String Ascii List ZArith Bool Lia DecimalString.
Import ListNotations.
Local Open Scope string_scope.
Set Warnings "-register-all".

(** ** Python values *)

Module Python.

(** The two control characters the source writes as [\n] and [\t]. *)
Definition LF : string := String (ascii_of_nat 10) EmptyString.
Definition TAB : string := String (ascii_of_nat 9) EmptyString.

Inductive PyException : Type :=
| AttributeError (type_name attribute : string)
| TypeError (message : string)
| ValueError (message : string).

(** Data objects: the atoms, and instances of user classes given by their
    class name and their attribute dictionary ([__dict__]) in insertion
    order.  The classes are plain ones: an instance has no attribute beyond
    its dictionary, and no value in this universe can be called. *)
Inductive PyObj : Type :=
| PyNone
| PyBool (b : bool)
| PyInt (z : Z)
| PyStr (s : string)
| PyInstance (cls : string) (attrs : list (string * PyObj)).

Definition type_name (o : PyObj) : string :=
  match o with
  | PyNone => "NoneType"
  | PyBool _ => "bool"
  | PyInt _ => "int"
  | PyStr _ => "str"
  | PyInstance cls _ => cls
  end.

(** [value is not None] *)
Definition is_not_None (o : PyObj) : bool :=
  match o with
  | PyNone => false
  | _ => true
  end.

(** Truth value of an object, as [if message] tests it. *)
Definition truthy (o : PyObj) : bool :=
  match o with
  | PyNone => false
  | PyBool b => b
  | PyInt z => negb (z =? 0)%Z
  | PyStr s => negb (s =? EmptyString)
  | PyInstance _ _ => true
  end.

Definition str_of_int (z : Z) : string := NilEmpty.string_of_int (Z.to_int z).

Fixpoint dict_get (name : string) (attrs : list (string * PyObj)) : option PyObj :=
  match attrs with
  | [] => None
  | (k, v) :: rest => if k =? name then Some v else dict_get name rest
  end.

(** Computations: the log written so far is threaded through, and a
    computation ends with a value or with a raised exception. *)
Inductive Outcome (A : Type) : Type :=
| Returned (a : A)
| Raised (e : PyException).
Arguments Returned {A} a.
Arguments Raised {A} e.

End Python.
Export Python.

(** ** The [logging] module *)

Module Logging.

Definition INFO : Z := 20.
Definition ERROR : Z := 40.

(** A call [logger.log(level, msg)] is recorded with its level and the
    object given as message. *)
Record LogRecord : Type := mkLogRecord { levelno : Z; msg : PyObj }.

Record Logger : Type := getLogger { logger_name : string }.

Definition Log : Type := list LogRecord.

Definition Py (A : Type) : Type := Log -> Outcome A * Log.

Definition ret {A} (a : A) : Py A := fun log => (Returned a, log).

Definition raise {A} (e : PyException) : Py A := fun log => (Raised e, log).

Definition bind {A B} (m : Py A) (k : A -> Py B) : Py B :=
  fun log =>
    match m log with
    | (Returned a, log') => k a log'
    | (Raised e, log') => (Raised e, log')
    end.

Definition emit (r : LogRecord) : Py PyObj :=
  fun log => (Returned PyNone, (log ++ [r])%list).

(** [logger.log(level, msg)]; the logger argument may be [None], and then
    the attribute lookup raises. *)
Definition logger_log (logger : option Logger) (level : Z) (message : PyObj) : Py PyObj :=
  match logger with
  | None => raise (AttributeError "NoneType" "log")
  | Some _ => emit (mkLogRecord level message)
  end.

Definition logger_info (logger : option Logger) (message : PyObj) : Py PyObj :=
  match logger with
  | None => raise (AttributeError "NoneType" "info")
  | Some _ => emit (mkLogRecord INFO message)
  end.

Definition logger_error (logger : option Logger) (message : PyObj) : Py PyObj :=
  match logger with
  | None => raise (AttributeError "NoneType" "error")
  | Some _ => emit (mkLogRecord ERROR message)
  end.

End Logging.
Export Logging.

Declare Scope py_scope.
Delimit Scope py_scope with py.
Notation "x <- m ;; k" := (bind m (fun x => k))
  (at level 61, m at next level, right associativity) : py_scope.
Notation "m ;;; k" := (bind m (fun _ => k))
  (at level 61, right associativity) : py_scope.
Local Open Scope py_scope.

(** ** The [on_rails] package *)

Module OnRails.

(** [Result] with its three fields, the details a failure can carry, and
    what a Python parameter annotated [Result] can really hold: a [Result]
    or any other object.  [ValidationError] is the package's detail for a
    rejected argument, [ExceptionError] the detail it builds from a caught
    exception; [FailResult] is the detail class of this repository. *)
Inductive Result : Type :=
| mkResult (success : bool) (detail : option ResultDetail) (value : PyObj)
with ResultDetail : Type :=
| ValidationError (title : string) (message : option string) (more_data : list PyArg)
| FailResult (code : Z) (message : option string)
| ExceptionError (exception : PyException)
with PyArg : Type :=
| Obj (o : PyObj)
| Res (r : Result).

Definition success (r : Result) : bool := let 'mkResult s _ _ := r in s.
Definition detail (r : Result) : option ResultDetail := let 'mkResult _ d _ := r in d.
Definition value (r : Result) : PyObj := let 'mkResult _ _ v := r in v.

(** [Result.ok(value=None)] and [Result.fail(detail=None)]. *)
Definition Result_ok (v : PyObj) : Result := mkResult true None v.
Definition Result_fail (d : option ResultDetail) : Result := mkResult false d PyNone.

(** [ValidationError(message=..., more_data=...)] with the default title. *)
Definition validation_title : string := "One or more validation errors occurred".

Definition new_ValidationError (message : string) (more_data : list PyArg) : ResultDetail :=
  ValidationError validation_title (Some message) more_data.

(** The numeric code of a detail: 400 for every validation error, the
    wrapped code for a [FailResult]; the code [on_rails] gives to the detail
    of a caught exception is not modelled. *)
Definition detail_code (d : ResultDetail) : option Z :=
  match d with
  | ValidationError _ _ _ => Some 400%Z
  | FailResult c _ => Some c
  | ExceptionError _ => None
  end.

Definition detail_message (d : ResultDetail) : option string :=
  match d with
  | ValidationError _ m _ => m
  | FailResult _ m => m
  | ExceptionError _ => None
  end.

(** Modelled from the spec: the class [FailResult] lives in
    [docker_entrypoint/_libs/ResultDetails/FailResult.py], which is not among
    the sources.  The spec has it be the failure detail that wraps a numeric
    exit code; [FailResult(code=code)] leaves its optional message out. *)
Definition new_FailResult (code : Z) : ResultDetail := FailResult code None.

Definition is_ValidationError (d : ResultDetail) : bool :=
  match d with
  | ValidationError _ _ _ => true
  | _ => false
  end.

Definition is_FailResult (d : ResultDetail) : bool :=
  match d with
  | FailResult _ _ => true
  | _ => false
  end.

(** What a callable gave back becomes a [Result]: a [Result] is kept, any
    other object is wrapped as a success value. *)
Definition to_result (a : PyArg) : Result :=
  match a with
  | Res r => r
  | Obj o => Result_ok o
  end.

(** [try_func]: run the callable once; an exception it raises becomes a
    failure [Result] and is not propagated. *)
Definition try_func (f : Py PyArg) : Py Result :=
  fun log =>
    match f log with
    | (Returned a, log') => (Returned (to_result a), log')
    | (Raised e, log') => (Returned (Result_fail (Some (ExceptionError e))), log')
    end.

(** The decorator [@def_result()]. *)
Definition def_result (body : Py PyArg) : Py Result := try_func body.

(** [self.on_success(func)]: on a failure the chain keeps [self]; on a
    success it continues with what [func(self.value)] gives. *)
Definition on_success (self : Result) (func : PyObj -> Py PyArg) : Py Result :=
  if success self then try_func (func (value self)) else ret self.

(** [self.on_success_operate_when(condition, func)]: on a success whose
    value satisfies the condition the chain continues with what
    [func(self.value)] gives; otherwise it keeps [self].  The condition is a
    predicate on the value, as the source passes one. *)
Definition on_success_operate_when (self : Result) (condition : PyObj -> bool)
    (func : PyObj -> Py PyArg) : Py Result :=
  if success self
  then if condition (value self) then try_func (func (value self)) else ret self
  else ret self.

(** [self.on_fail(func)]: on a failure the chain continues with what
    [func(self)] gives, [func] receiving the failed result itself; a success
    is kept. *)
Definition on_fail (self : Result) (func : Result -> Py PyArg) : Py Result :=
  if success self then ret self else try_func (func self).

End OnRails.
Export OnRails.

(** ** Built-in operations of Python on the modelled objects *)

Module Builtins.

(** [str] and [repr] of an instance are whatever its class defines, and the
    text [repr] gives for a [Result] is built by [on_rails] (it carries a
    stack trace): both are left open.  The [__str__] of a class may raise. *)
Class Rendering : Type := {
  instance_str : string -> list (string * PyObj) -> Outcome string;
  py_repr : PyArg -> string
}.

(** The number of decimal digits of an integer, its sign apart. *)
Definition int_digits (z : Z) : N := N.of_nat (String.length (str_of_int (Z.abs z))).

(** The default of [sys.get_int_max_str_digits()]. *)
Definition int_max_str_digits : N := 4300.

(** [str(o)].  An integer of more digits than the limit is not converted:
    [str] raises [ValueError]. *)
Definition py_str {R : Rendering} (o : PyObj) : Outcome string :=
  match o with
  | PyNone => Returned "None"
  | PyBool true => Returned "True"
  | PyBool false => Returned "False"
  | PyInt z =>
      if (int_max_str_digits <? int_digits z)%N
      then Raised (ValueError
             "Exceeds the limit (4300 digits) for integer string conversion; use sys.set_int_max_str_digits() to increase the limit")
      else Returned (str_of_int z)
  | PyStr s => Returned s
  | PyInstance cls attrs => instance_str cls attrs
  end.

(** [f"{o}"] inside a function: the text, or the exception goes up. *)
Definition format_value {R : Rendering} (o : PyObj) : Py string :=
  fun log => (py_str o, log).

(** Whether [str(o)] gives a text, and that text. *)
Definition can_str {R : Rendering} (o : PyObj) : bool :=
  match py_str o with
  | Returned _ => true
  | Raised _ => false
  end.

Definition str_text {R : Rendering} (o : PyObj) : string :=
  match py_str o with
  | Returned s => s
  | Raised _ => EmptyString
  end.

(** [o.name] *)
Definition getattr (o : PyObj) (name : string) : Py PyObj :=
  match o with
  | PyInstance cls attrs =>
      match dict_get name attrs with
      | Some v => ret v
      | None => raise (AttributeError cls name)
      end
  | _ => raise (AttributeError (type_name o) name)
  end.

(** [vars(o).items()]: only an object with a [__dict__] has them. *)
Definition vars (o : PyObj) : Py (list (string * PyObj)) :=
  match o with
  | PyInstance _ attrs => ret attrs
  | _ => raise (TypeError "vars() argument must have __dict__ attribute")
  end.

(** Calling [o], a plain data object: the error names the type of the
    object that is called. *)
Definition not_callable {A} (o : PyObj) : Py A :=
  raise (TypeError ("'" ++ type_name o ++ "' object is not callable")).

(** [logger.name], the method looked up before the arguments of the call
    are evaluated. *)
Definition logger_method (logger : option Logger) (name : string) : Py unit :=
  match logger with
  | None => raise (AttributeError "NoneType" name)
  | Some _ => ret tt
  end.

End Builtins.
Export Builtins.

(** ** The environment reader *)

Module DockerEnvironments.

(** The five values the reader looks up in the process environment, each
    set or absent. *)
Record Environ : Type := mkEnviron {
  env_maintainer : option string;
  env_docker_version : option string;
  env_build_date : option string;
  env_vcs_url : option string;
  env_bug_report : option string
}.

Definition no_environ : Environ := mkEnviron None None None None None.

(** An instance of the class, with the attributes [utility.py] reads. *)
Definition new_DockerEnvironments (maintainer docker_version build_date vcs_url bug_report : string)
  : PyObj :=
  PyInstance "DockerEnvironments"
    [ ("maintainer", PyStr maintainer);
      ("docker_version", PyStr docker_version);
      ("build_date", PyStr build_date);
      ("vcs_url", PyStr vcs_url);
      ("bug_report", PyStr bug_report) ].

Definition getenv (raw : option string) (default : string) : string :=
  match raw with
  | Some s => s
  | None => default
  end.

(** Modelled from the spec: [DockerEnvironments.get_environments] lives in
    [docker_entrypoint/_libs/docker_environments.py], which is not among the
    sources.  The spec has it supply the five fields, each defaulting to
    "No Data!" and the version to "latest" when the environment value is
    absent, and never fail. *)
Definition get_environments (environ : Environ) : Py Result :=
  ret (Result_ok
         (new_DockerEnvironments
            (getenv (env_maintainer environ) "No Data!")
            (getenv (env_docker_version environ) "latest")
            (getenv (env_build_date environ) "No Data!")
            (getenv (env_vcs_url environ) "No Data!")
            (getenv (env_bug_report environ) "No Data!"))).

End DockerEnvironments.
Export DockerEnvironments.

(** ** [docker_entrypoint/_libs/utility.py] *)

Section Utility.

Context {R : Rendering}.
Variable environ : Environ.

(** The text is one f-string: each field is read and formatted in turn,
    from left to right, before the next one is read. *)
Definition _get_support_message (environments : PyObj) : Py Result :=
  def_result (
    maintainer <- getattr environments "maintainer" ;;
    maintainer <- format_value maintainer ;;
    docker_version <- getattr environments "docker_version" ;;
    docker_version <- format_value docker_version ;;
    build_date <- getattr environments "build_date" ;;
    build_date <- format_value build_date ;;
    vcs_url <- getattr environments "vcs_url" ;;
    vcs_url <- format_value vcs_url ;;
    bug_report <- getattr environments "bug_report" ;;
    bug_report <- format_value bug_report ;;
    ret (Res (Result_ok (PyStr (
      "Support:" ++ LF ++
      TAB ++ "Maintainer: " ++ maintainer ++ LF ++
      TAB ++ "Docker Version: " ++ docker_version ++ LF ++
      TAB ++ "Build Date: " ++ build_date ++ LF ++
      TAB ++ "Repository: " ++ vcs_url ++ LF ++
      TAB ++ "Report Bug: " ++ bug_report ++ LF))))).

Definition get_support_message : Py Result :=
  def_result (
    environments <- get_environments environ ;;
    r <- on_success environments
           (fun environments => r <- _get_support_message environments ;; ret (Res r)) ;;
    ret (Res r)).

(** [fail_result.success] *)
Definition get_success (fail_result : PyArg) : Py PyObj :=
  match fail_result with
  | Res r => ret (PyBool (success r))
  | Obj o => getattr o "success"
  end.

Definition log_error (logger : option Logger) (fail_result : PyArg) : Py Result :=
  def_result (
    flag <- get_success fail_result ;;
    if truthy flag
    then ret (Res (Result_fail (Some (new_ValidationError
                "Expected failure result but got success result!" [fail_result]))))
    else
      logger_error logger
        (PyStr ("An error occurred:" ++ LF ++ py_repr fail_result ++ LF)) ;;;
      support <- get_support_message ;;
      r <- on_success support
             (fun support_message =>
                logger_method logger "info" ;;;
                text <- format_value support_message ;;
                o <- logger_info logger
                       (PyStr ("Please report this error to help others who use this program."
                               ++ LF ++ text)) ;;
                ret (Obj o)) ;;
      ret (Res r)).

Definition log_result (logger : option Logger) (result : PyArg) : Py Result :=
  def_result (
    match result with
    | Res result =>
        r <- on_success_operate_when result is_not_None
               (fun value => o <- logger_info logger value ;; ret (Obj o)) ;;
        r <- on_fail r
               (fun prev_result => r <- log_error logger (Res prev_result) ;; ret (Res r)) ;;
        ret (Res r)
    | Obj o =>
        method <- getattr o "on_success_operate_when" ;;
        not_callable method
    end).

(** The loop [for key, value in ...: result += f"\t{key}: {value}\n"],
    which stops at the first value that cannot be formatted. *)
Fixpoint add_properties (items : list (string * PyObj)) (result : string) : Py string :=
  match items with
  | [] => ret result
  | (key, value) :: rest =>
      text <- format_value value ;;
      add_properties rest (result ++ TAB ++ key ++ ": " ++ text ++ LF)
  end.

(** The line one attribute contributes to the message. *)
Definition property_line (item : string * PyObj) : string :=
  TAB ++ fst item ++ ": " ++ str_text (snd item) ++ LF.

(** The lines one after the other. *)
Definition join (lines : list string) : string := fold_right append EmptyString lines.

(** [f"{message}:\n" if message else ""] *)
Definition title_line (message : PyObj) : Py string :=
  if truthy message
  then title <- format_value message ;; ret (title ++ ":" ++ LF)
  else ret EmptyString.

Definition log_class_properties (logger : option Logger) (log_level : Z)
    (class_object : PyObj) (message : PyObj) : Py Result :=
  def_result (
    result <- title_line message ;;
    items <- vars class_object ;;
    result <- add_properties items result ;;
    logger_log logger log_level (PyStr result) ;;;
    ret (Res (Result_ok PyNone))).

Definition convert_code_to_result (code : Z) : Py Result :=
  def_result (
    if (code =? 0)%Z
    then ret (Res (Result_ok PyNone))
    else ret (Res (Result_fail (Some (new_FailResult code))))).

End Utility.

(** A rendering to evaluate with: [str] of an instance as the default
    [object.__str__] would show its class, [repr] of results as a tag for
    the outcome. *)
Definition sample_rendering : Rendering := {|
  instance_str := fun cls _ => Returned ("<" ++ cls ++ " object>");
  py_repr := fun a =>
    match a with
    | Res r => if success r then "Result(success)" else "Result(failure)"
    | Obj o => "<" ++ type_name o ++ ">"
    end
|}.

(** The object of the tests: a class whose constructor sets [prop1] and
    [prop2]. *)
Definition Fake : PyObj :=
  PyInstance "Fake" [("prop1", PyStr "prop1"); ("prop2", PyStr "prop2")].

Definition root_logger : Logger := getLogger "root".

(** ** The formatter the tests call

    The tests import [class_properties_to_str] from [utility.py], which does
    not define it; the spec describes it as the object property formatter,
    apart from the wrapper that logs. *)

(** Modelled from the spec: a public attribute, one whose name does not
    start with an underscore. *)
Definition is_public (item : string * PyObj) : bool := negb (prefix "_" (fst item)).

(** Modelled from the spec: a whitespace character, the blank and the
    control characters from tab to carriage return. *)
Definition is_space (c : ascii) : bool :=
  let n := nat_of_ascii c in
  (n =? 32)%nat || ((9 <=? n)%nat && (n <=? 13)%nat).

(** Modelled from the spec: a blank title, empty or of whitespace only. *)
Fixpoint is_blank (s : string) : bool :=
  match s with
  | EmptyString => true
  | String c rest => is_space c && is_blank rest
  end.

(** Modelled from the spec: the lines [name: value] of the attributes, each
    after the indentation. *)
Fixpoint format_properties {R : Rendering} (indent : string)
    (items : list (string * PyObj)) : Py string :=
  match items with
  | [] => ret EmptyString
  | (key, value) :: rest =>
      text <- format_value value ;;
      lines <- format_properties indent rest ;;
      ret (indent ++ key ++ ": " ++ text ++ LF ++ lines)
  end.

(** Modelled from the spec: [class_properties_to_str(class_object, title)]
    is missing from [utility.py].  The spec has it fail with the validation
    error "The class object is required." when the object is absent and with
    "The message must be a string." when a title that is not a string is
    supplied; otherwise render each public attribute as [name: value] on its
    own line, in insertion order, under the line [title:] and indented by a
    tab when a non-blank title is supplied, without indentation otherwise;
    and return the text as the success value.  It has no logger.  The
    optional indentation argument, of which the spec says no more than that
    it exists, is left out. *)
Definition class_properties_to_str {R : Rendering}
    (class_object : PyObj) (title : PyObj) : Py Result :=
  def_result (
    match class_object, title with
    | PyNone, _ =>
        ret (Res (Result_fail (Some (new_ValidationError
               "The class object is required." []))))
    | _, PyNone =>
        items <- vars class_object ;;
        lines <- format_properties EmptyString (filter is_public items) ;;
        ret (Res (Result_ok (PyStr lines)))
    | _, PyStr title =>
        items <- vars class_object ;;
        if is_blank title
        then
          lines <- format_properties EmptyString (filter is_public items) ;;
          ret (Res (Result_ok (PyStr lines)))
        else
          lines <- format_properties TAB (filter is_public items) ;;
          ret (Res (Result_ok (PyStr (title ++ ":" ++ LF ++ lines))))
    | _, _ =>
        ret (Res (Result_fail (Some (new_ValidationError
               "The message must be a string." []))))
    end).

(** The table [D8_Recommended_OPTIONS]: a dictionary literal, given by its
    items in the order they are written.  Looking a flag up is
    [D8_Recommended_OPTIONS.get(flag)]. *)
Definition D8_Recommended_OPTIONS : list (string * string) :=
  [ ("--harmony",
     "Enables support for some of the experimental ES6 features that are not yet fully standardized");
    ("--allow-natives-syntax",
     "Enables the use of V8-specific syntax in JavaScript code");
    ("--trace-opt", "Enables logging of V8's optimization process");
    ("--print-bytecode", "Prints the generated bytecode for JavaScript functions");
    ("--print-opt-code",
     "Prints the generated optimized machine code for JavaScript functions");
    ("--trace", "Enables detailed logging of V8 internals");
    ("--log-timer-events", "Enables logging of timer events");
    ("--log-gc", "Enables logging of garbage collection events");
    ("--prof", "Enables CPU profiling");
    ("--trace-deopt", "Enables logging of V8's deoptimization process");
    ("--trace-ic", "Enables logging of inline caching events") ].

Fixpoint options_get (flag : string) (items : list (string * string)) : option string :=
  match items with
  | [] => None
  | (k, v) :: rest => if k =? flag then Some v else options_get flag rest
  end.

(** * Properties *)

(** ** Strings and the monad *)

Lemma append_assoc (a b c : string) : (a ++ b) ++ c = a ++ (b ++ c).
Proof.
  induction a as [|ch a IH]; simpl.
  - reflexivity.
  - now rewrite IH.
Qed.

Lemma append_empty_r (a : string) : a ++ EmptyString = a.
Proof.
  induction a as [|ch a IH]; simpl; [reflexivity | now rewrite IH].
Qed.

(** A decorated function never lets an exception out. *)
Lemma def_result_returns (body : Py PyArg) (log : Log) :
  exists r log', def_result body log = (Returned r, log').
Proof.
  unfold def_result, try_func.
  destruct (body log) as [[a|e] log']; eauto.
Qed.

(** The loop of [log_class_properties] appends one line per item, in the
    order of the items, when every value can be formatted. *)
Lemma add_properties_rendered {R : Rendering} (items : list (string * PyObj))
    (start : string) (log : Log) :
  forallb (fun item => can_str (snd item)) items = true ->
  add_properties items start log
  = (Returned (start ++ join (map property_line items)), log).
Proof.
  revert start.
  induction items as [|[key value] items IH]; intros start Hall.
  - cbn. now rewrite append_empty_r.
  - cbn [forallb snd] in Hall. apply andb_prop in Hall as [Hv Hrest].
    cbn [add_properties map join fold_right].
    unfold bind, format_value, property_line, str_text. cbn [fst snd].
    unfold can_str in Hv.
    destruct (py_str value) as [text|e]; [|discriminate Hv].
    rewrite (IH _ Hrest). fold (join (map property_line items)).
    now rewrite append_assoc.
Qed.

(** The loop over two lists in a row is the loop over the first, then over
    the second from where the first ended. *)
Lemma add_properties_app {R : Rendering} (items more : list (string * PyObj))
    (start : string) (log : Log) :
  add_properties (items ++ more) start log
  = match add_properties items start log with
    | (Returned done, log') => add_properties more done log'
    | (Raised e, log') => (Raised e, log')
    end.
Proof.
  revert start.
  induction items as [|[key value] items IH]; intros start.
  - reflexivity.
  - cbn [app add_properties]. unfold bind, format_value.
    destruct (py_str value) as [text|e]; [apply IH | reflexivity].
Qed.

(** Neither the title nor the loop writes a record. *)
Lemma title_line_keeps_log {R : Rendering} (message : PyObj) (log : Log) :
  exists out, title_line message log = (out, log).
Proof.
  unfold title_line, bind, format_value, ret.
  destruct (truthy message); [destruct (py_str message)|]; eexists; reflexivity.
Qed.

Lemma title_line_rendered {R : Rendering} (message : PyObj) (log : Log) :
  negb (truthy message) || can_str message = true ->
  title_line message log
  = (Returned (if truthy message then str_text message ++ ":" ++ LF else EmptyString),
     log).
Proof.
  unfold title_line, bind, format_value, ret, can_str, str_text.
  destruct (truthy message); cbn [negb orb]; [|reflexivity].
  destruct (py_str message); [reflexivity | discriminate].
Qed.

Lemma add_properties_keeps_log {R : Rendering} (items : list (string * PyObj))
    (start : string) (log : Log) :
  exists out, add_properties items start log = (out, log).
Proof.
  revert start.
  induction items as [|[key value] items IH]; intros start.
  - eexists. reflexivity.
  - cbn [add_properties]. unfold bind, format_value.
    destruct (py_str value) as [text|e].
    + apply IH.
    + eexists. reflexivity.
Qed.

(** ** The support message *)

(** The reader never fails, so the support message is always there, and
    building it writes nothing. *)
Lemma get_support_message_total {R : Rendering} (environ : Environ) :
  exists text, forall log,
    get_support_message environ log = (Returned (Result_ok (PyStr text)), log).
Proof.
  eexists. intros log.
  unfold get_support_message, get_environments, def_result, try_func, bind, ret.
  cbn. reflexivity.
Qed.

(** C8. For every record of the five environment fields the support
    message is the fixed block of five tab-indented lines under "Support:",
    with the fields substituted; [get_support_message] returns it as a
    success value, each absent field replaced by its default; and with no
    environment data set the value is exactly the block with "No Data!"
    everywhere and "latest" for the version. *)
Theorem support_message_format {R : Rendering}
    (maintainer docker_version build_date vcs_url bug_report : string)
    (environ : Environ) (log : Log) :
  _get_support_message
      (new_DockerEnvironments maintainer docker_version build_date vcs_url bug_report) log
    = (Returned (Result_ok (PyStr (
         "Support:" ++ LF ++
         TAB ++ "Maintainer: " ++ maintainer ++ LF ++
         TAB ++ "Docker Version: " ++ docker_version ++ LF ++
         TAB ++ "Build Date: " ++ build_date ++ LF ++
         TAB ++ "Repository: " ++ vcs_url ++ LF ++
         TAB ++ "Report Bug: " ++ bug_report ++ LF))), log)
  /\ get_support_message environ log
    = (Returned (Result_ok (PyStr (
         "Support:" ++ LF ++
         TAB ++ "Maintainer: " ++ getenv (env_maintainer environ) "No Data!" ++ LF ++
         TAB ++ "Docker Version: " ++ getenv (env_docker_version environ) "latest" ++ LF ++
         TAB ++ "Build Date: " ++ getenv (env_build_date environ) "No Data!" ++ LF ++
         TAB ++ "Repository: " ++ getenv (env_vcs_url environ) "No Data!" ++ LF ++
         TAB ++ "Report Bug: " ++ getenv (env_bug_report environ) "No Data!" ++ LF))), log)
  /\ get_support_message no_environ log
    = (Returned (Result_ok (PyStr (
         "Support:" ++ LF ++
         TAB ++ "Maintainer: No Data!" ++ LF ++
         TAB ++ "Docker Version: latest" ++ LF ++
         TAB ++ "Build Date: No Data!" ++ LF ++
         TAB ++ "Repository: No Data!" ++ LF ++
         TAB ++ "Report Bug: No Data!" ++ LF))), log).
Proof.
  repeat split.
Qed.

(** ** The exit-code converter *)

(** C2. For every integer code the converter returns a success carrying no
    value exactly when the code is 0; for every other code, negative ones
    included, it returns a failure whose detail is a [FailResult] carrying
    that same code.  Nothing is logged. *)
Theorem convert_code_to_result_roundtrip (code : Z) (log : Log) :
  exists r,
    convert_code_to_result code log = (Returned r, log)
    /\ ((success r = true /\ value r = PyNone) <-> code = 0%Z)
    /\ (success r = false <-> code <> 0%Z)
    /\ (code = 0%Z \/
        exists d, detail r = Some d /\ is_FailResult d = true /\ detail_code d = Some code).
Proof.
  unfold convert_code_to_result, def_result, try_func, ret.
  destruct (Z.eqb_spec code 0) as [E|NE].
  - exists (Result_ok PyNone). cbn.
    split; [reflexivity|].
    split; [tauto|].
    split; [|now left].
    split; [discriminate | intros NE; contradiction].
  - exists (Result_fail (Some (FailResult code None))). cbn.
    split; [reflexivity|].
    split; [split; [intros [D _]; discriminate | intros E; contradiction]|].
    split; [tauto|].
    right. exists (FailResult code None). auto.
Qed.

(** ** The error logger *)

(** C4. Given a valid logger and a successful result, [log_error] returns a
    failure whose detail is a validation error (code 400) with the message
    "Expected failure result but got success result!" and the result it was
    given as its only supporting data; it writes no log line. *)
Theorem log_error_rejects_success {R : Rendering} (environ : Environ)
    (logger : Logger) (r : Result) (log : Log) :
  success r = true ->
  exists d,
    log_error environ (Some logger) (Res r) log = (Returned (Result_fail (Some d)), log)
    /\ d = ValidationError validation_title
             (Some "Expected failure result but got success result!") [Res r]
    /\ detail_code d = Some 400%Z.
Proof.
  intros Hs.
  eexists. split; [|split; [reflexivity|reflexivity]].
  unfold log_error, def_result, try_func, bind, get_success, ret.
  rewrite Hs. reflexivity.
Qed.

Lemma log_error_rejects_success_witness :
  success (Result_ok (PyStr "done")) = true /\
  exists d,
    log_error (R := sample_rendering) no_environ (Some root_logger)
        (Res (Result_ok (PyStr "done"))) []
      = (Returned (Result_fail (Some d)), [])
    /\ d = ValidationError validation_title
             (Some "Expected failure result but got success result!")
             [Res (Result_ok (PyStr "done"))]
    /\ detail_code d = Some 400%Z.
Proof.
  split.
  - reflexivity.
  - apply (log_error_rejects_success (R := sample_rendering) no_environ root_logger
             (Result_ok (PyStr "done")) []).
    reflexivity.
Defined.

(** What [log_error] does with a failure, for any support message the
    builder gives. *)
Lemma log_error_on_failure {R : Rendering} (environ : Environ)
    (logger : Logger) (F : Result) (log : Log) (text : string) :
  success F = false ->
  (forall log0, get_support_message environ log0
                = (Returned (Result_ok (PyStr text)), log0)) ->
  log_error environ (Some logger) (Res F) log
  = (Returned (Result_ok PyNone),
     (log ++
      [ mkLogRecord ERROR
          (PyStr ("An error occurred:" ++ LF ++ py_repr (Res F) ++ LF));
        mkLogRecord INFO
          (PyStr ("Please report this error to help others who use this program."
                  ++ LF ++ text)) ])%list).
Proof.
  intros Hf Ht.
  unfold log_error, def_result, try_func, get_success.
  unfold bind at 1. unfold ret at 1. rewrite Hf. cbn [truthy].
  unfold bind at 1. cbn [logger_error emit].
  unfold bind at 1. rewrite Ht.
  unfold on_success, bind, try_func, ret. cbn.
  rewrite <- app_assoc. reflexivity.
Qed.

(** C5. Given a valid logger and a failure [F], whatever its detail,
    [log_error] writes exactly two lines after what was logged before:
    first one at error level, "An error occurred:" followed by the
    representation of [F]; then one at info level, the invitation to report
    followed by the support message.  It returns a success. *)
Theorem log_error_logs_failure {R : Rendering} (environ : Environ)
    (logger : Logger) (F : Result) (log : Log) :
  success F = false ->
  exists support_message,
    (forall log0, get_support_message environ log0
                  = (Returned (Result_ok (PyStr support_message)), log0))
    /\ log_error environ (Some logger) (Res F) log
       = (Returned (Result_ok PyNone),
          (log ++
           [ mkLogRecord ERROR
               (PyStr ("An error occurred:" ++ LF ++ py_repr (Res F) ++ LF));
             mkLogRecord INFO
               (PyStr ("Please report this error to help others who use this program."
                       ++ LF ++ support_message)) ])%list).
Proof.
  intros Hf.
  destruct (get_support_message_total environ) as [text Ht].
  exists text. split; [exact Ht|].
  now apply log_error_on_failure.
Qed.

Lemma log_error_logs_failure_witness :
  success (Result_fail (Some (FailResult 5 (Some "message")))) = false /\
  exists support_message,
    (forall log0, get_support_message (R := sample_rendering) no_environ log0
                  = (Returned (Result_ok (PyStr support_message)), log0))
    /\ log_error (R := sample_rendering) no_environ (Some root_logger)
         (Res (Result_fail (Some (FailResult 5 (Some "message"))))) []
       = (Returned (Result_ok PyNone),
          [ mkLogRecord ERROR
              (PyStr ("An error occurred:" ++ LF ++ "Result(failure)" ++ LF));
            mkLogRecord INFO
              (PyStr ("Please report this error to help others who use this program."
                      ++ LF ++ support_message)) ]).
Proof.
  split.
  - reflexivity.
  - apply (log_error_logs_failure (R := sample_rendering) no_environ root_logger
             (Result_fail (Some (FailResult 5 (Some "message")))) []).
    reflexivity.
Defined.

(** ** The result logger *)

(** What [log_result] does with a success: nothing when the value is
    [None]; otherwise one info line with the value, and the chain goes on
    with what the logging call gave back. *)
Lemma log_result_on_success {R : Rendering} (environ : Environ)
    (logger : Logger) (r : Result) (log : Log) :
  success r = true ->
  log_result environ (Some logger) (Res r) log
  = if is_not_None (value r)
    then (Returned (Result_ok PyNone), (log ++ [mkLogRecord INFO (value r)])%list)
    else (Returned r, log).
Proof.
  intros Hs.
  unfold log_result, def_result, try_func, on_success_operate_when.
  rewrite Hs.
  destruct (is_not_None (value r)).
  - reflexivity.
  - unfold bind, ret, on_fail. rewrite Hs. reflexivity.
Qed.

Lemma log_error_returns {R : Rendering} (environ : Environ)
    (logger : option Logger) (fail_result : PyArg) (log : Log) :
  exists r log', log_error environ logger fail_result log = (Returned r, log').
Proof.
  unfold log_error. apply def_result_returns.
Qed.

(** On a failure [log_result] is [log_error]: the same lines, and the same
    returned result. *)
Lemma log_result_on_failure {R : Rendering} (environ : Environ)
    (logger : option Logger) (F : Result) (log : Log) :
  success F = false ->
  log_result environ logger (Res F) log = log_error environ logger (Res F) log.
Proof.
  intros Hf.
  destruct (log_error_returns environ logger (Res F) log) as (r & log' & E).
  rewrite E.
  unfold log_result, def_result, try_func, on_success_operate_when, on_fail.
  rewrite Hf. unfold bind at 1. unfold ret at 1.
  rewrite Hf. unfold bind, try_func, ret. rewrite E. reflexivity.
Qed.

(** C6 (as amended). Given a valid logger and a successful result: when its
    value is [None] nothing is logged and the result given is returned
    unchanged; when its value [v] is not [None] exactly one info line equal
    to [v] is logged, and what is returned is a success carrying no value
    (the outcome of the logging call), not the result given. *)
Theorem log_result_success {R : Rendering} (environ : Environ)
    (logger : Logger) (r : Result) (log : Log) :
  success r = true ->
  (value r = PyNone ->
     log_result environ (Some logger) (Res r) log = (Returned r, log))
  /\ (value r <> PyNone ->
     log_result environ (Some logger) (Res r) log
     = (Returned (Result_ok PyNone), (log ++ [mkLogRecord INFO (value r)])%list)).
Proof.
  intros Hs.
  pose proof (log_result_on_success environ logger r log Hs) as E.
  split; intros Hv.
  - rewrite Hv in E. exact E.
  - destruct (value r); try exact E. contradiction.
Qed.

Lemma log_result_success_witness :
  success (Result_ok (PyStr "value")) = true /\
  log_result (R := sample_rendering) no_environ (Some root_logger)
      (Res (Result_ok (PyStr "value"))) []
    = (Returned (Result_ok PyNone), [mkLogRecord INFO (PyStr "value")]) /\
  log_result (R := sample_rendering) no_environ (Some root_logger)
      (Res (Result_ok PyNone)) []
    = (Returned (Result_ok PyNone), []).
Proof.
  split; [reflexivity|]. split.
  - apply (log_result_success (R := sample_rendering) no_environ root_logger
             (Result_ok (PyStr "value")) []).
    + reflexivity.
    + discriminate.
  - apply (log_result_success (R := sample_rendering) no_environ root_logger
             (Result_ok PyNone) []); reflexivity.
Defined.

(** Given the success [Result.ok("value")], the result that comes back is
    not the one that went in. *)
Lemma log_result_value_not_passed_through :
  exists r log',
    log_result (R := sample_rendering) no_environ (Some root_logger)
        (Res (Result_ok (PyStr "value"))) [] = (Returned r, log')
    /\ r <> Result_ok (PyStr "value").
Proof.
  exists (Result_ok PyNone), [mkLogRecord INFO (PyStr "value")].
  split; [reflexivity | discriminate].
Qed.

(** C7. Given a valid logger and a failure [F], [log_result] writes exactly
    the lines [log_error] writes for [F]; what it returns is the result of
    [log_error], a success carrying no value, so [F] is not passed
    through. *)
Theorem log_result_failure {R : Rendering} (environ : Environ)
    (logger : Logger) (F : Result) (log : Log) :
  success F = false ->
  log_result environ (Some logger) (Res F) log
    = log_error environ (Some logger) (Res F) log
  /\ fst (log_result environ (Some logger) (Res F) log) = Returned (Result_ok PyNone)
  /\ Result_ok PyNone <> F.
Proof.
  intros Hf.
  destruct (get_support_message_total environ) as [text Ht].
  split; [now apply log_result_on_failure|].
  split.
  - rewrite (log_result_on_failure environ (Some logger) F log Hf).
    rewrite (log_error_on_failure environ logger F log text Hf Ht). reflexivity.
  - intros <-. discriminate.
Qed.

Lemma log_result_failure_witness :
  success (Result_fail (Some (ValidationError validation_title None []))) = false /\
  log_result (R := sample_rendering) no_environ (Some root_logger)
      (Res (Result_fail (Some (ValidationError validation_title None [])))) []
    = log_error (R := sample_rendering) no_environ (Some root_logger)
        (Res (Result_fail (Some (ValidationError validation_title None [])))) []
  /\ fst (log_result (R := sample_rendering) no_environ (Some root_logger)
            (Res (Result_fail (Some (ValidationError validation_title None [])))) [])
     = Returned (Result_ok PyNone)
  /\ Result_ok PyNone <> Result_fail (Some (ValidationError validation_title None [])).
Proof.
  split; [reflexivity|].
  apply (log_result_failure (R := sample_rendering) no_environ root_logger
           (Result_fail (Some (ValidationError validation_title None []))) []).
  reflexivity.
Defined.

(** ** Arguments that are absent or of the wrong kind *)

(** C1. Neither logging function checks its arguments.  Without a logger
    and with the plain success [Result.ok()], [log_result] returns that
    success and [log_error] answers with its message about an unexpected
    success; with a logger and [None] for the result, both return the
    failure made from the [AttributeError] that the first use of the
    argument raises.  None of these is the validation failure "The logger is
    required." or "The result parameter is required and must be an instance
    of Result."; no line is logged in any of them. *)
Theorem log_functions_do_not_validate {R : Rendering} (environ : Environ) (log : Log) :
  log_result environ None (Res (Result_ok PyNone)) log
    = (Returned (Result_ok PyNone), log)
  /\ log_error environ None (Res (Result_ok PyNone)) log
    = (Returned (Result_fail (Some (ValidationError validation_title
         (Some "Expected failure result but got success result!")
         [Res (Result_ok PyNone)]))), log)
  /\ log_result environ (Some root_logger) (Obj PyNone) log
    = (Returned (Result_fail (Some (ExceptionError
         (AttributeError "NoneType" "on_success_operate_when")))), log)
  /\ log_error environ (Some root_logger) (Obj PyNone) log
    = (Returned (Result_fail (Some (ExceptionError
         (AttributeError "NoneType" "success")))), log).
Proof.
  repeat split.
Qed.

(** ** The properties of an object *)

(** C3. For every object whose public attributes are [prop1 = "prop1"] and
    [prop2 = "prop2"], whatever its class and its other attributes, the
    formatter returns the text as the success value and writes nothing:
    without a title the two lines as they are, with the title "message" the
    line "message:" and the two lines each after a tab, and with a blank
    title, empty or of whitespace only, what it returns without a title. *)
Theorem class_properties_to_str_formats {R : Rendering}
    (cls : string) (attrs : list (string * PyObj)) (log : Log) :
  filter is_public attrs = [("prop1", PyStr "prop1"); ("prop2", PyStr "prop2")] ->
  class_properties_to_str (PyInstance cls attrs) PyNone log
    = (Returned (Result_ok (PyStr (
         "prop1: prop1" ++ LF ++ "prop2: prop2" ++ LF))), log)
  /\ class_properties_to_str (PyInstance cls attrs) (PyStr "message") log
    = (Returned (Result_ok (PyStr (
         "message:" ++ LF ++
         TAB ++ "prop1: prop1" ++ LF ++ TAB ++ "prop2: prop2" ++ LF))), log)
  /\ (forall title, is_blank title = true ->
        class_properties_to_str (PyInstance cls attrs) (PyStr title) log
        = class_properties_to_str (PyInstance cls attrs) PyNone log).
Proof.
  intros Hpublic.
  split; [|split].
  - unfold class_properties_to_str, def_result, try_func, bind, vars, ret.
    rewrite Hpublic. reflexivity.
  - unfold class_properties_to_str, def_result, try_func, bind, vars, ret.
    cbn [is_blank is_space]. rewrite Hpublic. reflexivity.
  - intros title Hblank.
    unfold class_properties_to_str, def_result, try_func, bind, vars, ret.
    rewrite Hblank. reflexivity.
Qed.

Lemma class_properties_to_str_formats_witness :
  class_properties_to_str (R := sample_rendering)
      (PyInstance "Fake"
         [("_id", PyInt 7); ("prop1", PyStr "prop1"); ("prop2", PyStr "prop2")])
      PyNone []
    = (Returned (Result_ok (PyStr (
         "prop1: prop1" ++ LF ++ "prop2: prop2" ++ LF))), [])
  /\ class_properties_to_str (R := sample_rendering)
      (PyInstance "Fake"
         [("_id", PyInt 7); ("prop1", PyStr "prop1"); ("prop2", PyStr "prop2")])
      (PyStr "message") []
    = (Returned (Result_ok (PyStr (
         "message:" ++ LF ++
         TAB ++ "prop1: prop1" ++ LF ++ TAB ++ "prop2: prop2" ++ LF))), [])
  /\ (forall title, is_blank title = true ->
        class_properties_to_str (R := sample_rendering)
          (PyInstance "Fake"
             [("_id", PyInt 7); ("prop1", PyStr "prop1"); ("prop2", PyStr "prop2")])
          (PyStr title) []
        = class_properties_to_str (R := sample_rendering)
          (PyInstance "Fake"
             [("_id", PyInt 7); ("prop1", PyStr "prop1"); ("prop2", PyStr "prop2")])
          PyNone []).
Proof.
  apply (class_properties_to_str_formats (R := sample_rendering) "Fake"
           [("_id", PyInt 7); ("prop1", PyStr "prop1"); ("prop2", PyStr "prop2")] []).
  reflexivity.
Defined.

(** C9. When the object is absent the formatter returns, whatever the
    title, a failure whose detail is the validation error "The class object
    is required."; when an object is there and the title supplied is not a
    string it returns a failure whose detail is the validation error "The
    message must be a string.".  Both carry the code 400, both are returned
    and not raised, and nothing is written. *)
Theorem class_properties_to_str_validates {R : Rendering}
    (class_object title : PyObj) (log : Log) :
  class_object <> PyNone ->
  match title with
  | PyNone | PyStr _ => False
  | _ => True
  end ->
  (forall any_title,
     class_properties_to_str PyNone any_title log
     = (Returned (Result_fail (Some (ValidationError validation_title
          (Some "The class object is required.") []))), log))
  /\ class_properties_to_str class_object title log
     = (Returned (Result_fail (Some (ValidationError validation_title
          (Some "The message must be a string.") []))), log)
  /\ detail_code (ValidationError validation_title
          (Some "The class object is required.") []) = Some 400%Z
  /\ detail_code (ValidationError validation_title
          (Some "The message must be a string.") []) = Some 400%Z.
Proof.
  intros Hobject Htitle.
  split; [|split; [|split; reflexivity]].
  - intros any_title. reflexivity.
  - unfold class_properties_to_str, def_result, try_func, ret.
    destruct class_object; [contradiction | ..];
      destruct title; try contradiction; reflexivity.
Qed.

Lemma class_properties_to_str_validates_witness :
  (forall any_title,
     class_properties_to_str (R := sample_rendering) PyNone any_title []
     = (Returned (Result_fail (Some (ValidationError validation_title
          (Some "The class object is required.") []))), []))
  /\ class_properties_to_str (R := sample_rendering) Fake (PyInt 7) []
     = (Returned (Result_fail (Some (ValidationError validation_title
          (Some "The message must be a string.") []))), [])
  /\ detail_code (ValidationError validation_title
          (Some "The class object is required.") []) = Some 400%Z
  /\ detail_code (ValidationError validation_title
          (Some "The message must be a string.") []) = Some 400%Z.
Proof.
  apply (class_properties_to_str_validates (R := sample_rendering) Fake (PyInt 7) []).
  - discriminate.
  - exact I.
Defined.

(** C10 (as amended). For every object that has an attribute dictionary
    whose values [str] can format, as it can the message when that is
    truthy, every logger and every level, [log_class_properties] makes
    exactly one call to [logger.log], at that level, with one line
    "\tname: value\n" per entry of the dictionary, public or not, in
    insertion order, after a first line "message:\n" when the message is
    truthy; it returns a success carrying no value. *)
Theorem log_class_properties_logs_once {R : Rendering} (logger : Logger) (level : Z)
    (cls : string) (attrs : list (string * PyObj)) (message : PyObj) (log : Log) :
  negb (truthy message) || can_str message = true ->
  forallb (fun item => can_str (snd item)) attrs = true ->
  log_class_properties (Some logger) level (PyInstance cls attrs) message log
  = (Returned (Result_ok PyNone),
     (log ++ [mkLogRecord level (PyStr (
        (if truthy message then str_text message ++ ":" ++ LF else EmptyString)
        ++ join (map property_line attrs)))])%list).
Proof.
  intros Hmessage Hattrs.
  unfold log_class_properties, def_result, try_func.
  unfold bind at 1. rewrite (title_line_rendered message log Hmessage).
  unfold bind at 1. unfold vars, ret at 1.
  unfold bind at 1. rewrite (add_properties_rendered attrs _ log Hattrs).
  reflexivity.
Qed.

Lemma log_class_properties_logs_once_witness :
  log_class_properties (R := sample_rendering) (Some root_logger) INFO
      (PyInstance "Fake" [("prop1", PyStr "prop1"); ("count", PyInt (-12))])
      (PyStr "message") []
  = (Returned (Result_ok PyNone),
     [mkLogRecord INFO (PyStr (
        "message:" ++ LF ++
        TAB ++ "prop1: prop1" ++ LF ++ TAB ++ "count: -12" ++ LF))]).
Proof.
  apply (log_class_properties_logs_once (R := sample_rendering) root_logger INFO
           "Fake" [("prop1", PyStr "prop1"); ("count", PyInt (-12))]
           (PyStr "message") []); reflexivity.
Defined.

(** Three objects for which it is otherwise.  The integer 5 is an
    object and is not [None], but it has no attribute dictionary: no call to
    the logger is made and a failure is returned.  An attribute holding an
    integer of 4301 digits cannot be formatted: again no call and a failure.
    An object whose only attribute is [_secret] has no public attribute, and
    the message has a line for it. *)
Lemma log_class_properties_not_for_every_object :
  (log_class_properties (R := sample_rendering) (Some root_logger) INFO (PyInt 5) PyNone []
     = (Returned (Result_fail (Some (ExceptionError
          (TypeError "vars() argument must have __dict__ attribute")))), [])
   /\ ~ (exists text,
           log_class_properties (R := sample_rendering) (Some root_logger) INFO
               (PyInt 5) PyNone []
           = (Returned (Result_ok PyNone), [mkLogRecord INFO text])))
  /\ (exists e,
        log_class_properties (R := sample_rendering) (Some root_logger) INFO
            (PyInstance "Fake" [("e", PyInt (10 ^ 4300))]) PyNone []
        = (Returned (Result_fail (Some (ExceptionError (ValueError e)))), []))
  /\ log_class_properties (R := sample_rendering) (Some root_logger) INFO
         (PyInstance "Fake" [("_secret", PyStr "x")]) PyNone []
     = (Returned (Result_ok PyNone),
        [mkLogRecord INFO (PyStr (TAB ++ "_secret: x" ++ LF))]).
Proof.
  split; [split|split].
  - reflexivity.
  - intros [text E]. discriminate E.
  - eexists. vm_compute. reflexivity.
  - reflexivity.
Qed.

(** * Further properties of the code *)

(** ** The logging functions without a logger *)

(** X1. Without a logger [log_result] never logs; it returns the result it
    was given when that is a success with no value, and for every other
    result the failure made from the [AttributeError] of [logger.error]:
    the lookup of [logger.info] fails first on a valued success, and the
    failure it leaves is then handed to [log_error]. *)
Theorem log_result_without_logger {R : Rendering} (environ : Environ)
    (r : Result) (log : Log) :
  log_result environ None (Res r) log
  = if success r && negb (is_not_None (value r))
    then (Returned r, log)
    else (Returned (Result_fail (Some (ExceptionError
            (AttributeError "NoneType" "error")))), log).
Proof.
  destruct r as [s d v].
  destruct s; destruct v; reflexivity.
Qed.

(** X2. Without a logger [log_error] never logs; a success is still
    rejected with the validation error that carries it, since that branch
    does not touch the logger, and a failure gives the failure made from
    the [AttributeError] of [logger.error], before any support message is
    built. *)
Theorem log_error_without_logger {R : Rendering} (environ : Environ)
    (r : Result) (log : Log) :
  log_error environ None (Res r) log
  = if success r
    then (Returned (Result_fail (Some (ValidationError validation_title
            (Some "Expected failure result but got success result!") [Res r]))), log)
    else (Returned (Result_fail (Some (ExceptionError
            (AttributeError "NoneType" "error")))), log).
Proof.
  destruct r as [s d v].
  destruct s; reflexivity.
Qed.

(** ** Arguments that are not results *)

(** X3. For [None] and for every boolean, integer or string given as the
    result, with a logger or without, [log_result] logs nothing and returns
    the failure made from the [AttributeError] that names the type of the
    argument and the method [on_success_operate_when]. *)
Theorem log_result_on_atom {R : Rendering} (environ : Environ)
    (logger : option Logger) (o : PyObj) (log : Log) :
  (forall cls attrs, o <> PyInstance cls attrs) ->
  log_result environ logger (Obj o) log
  = (Returned (Result_fail (Some (ExceptionError
       (AttributeError (type_name o) "on_success_operate_when")))), log).
Proof.
  intros Hatom.
  destruct o as [| b | z | s | cls attrs]; try reflexivity.
  now destruct (Hatom cls attrs).
Qed.

Lemma log_result_on_atom_witness :
  log_result (R := sample_rendering) no_environ (Some root_logger) (Obj (PyInt 5)) []
  = (Returned (Result_fail (Some (ExceptionError
       (AttributeError "int" "on_success_operate_when")))), []).
Proof.
  apply (log_result_on_atom (R := sample_rendering) no_environ (Some root_logger)
           (PyInt 5) []).
  discriminate.
Defined.

(** X4. [log_error] looks only at the attribute [success] of its argument:
    an instance of any class whose [success] is truthy is rejected like a
    successful result, with the instance attached to the validation error,
    and nothing is logged. *)
Theorem log_error_duck_typed_success {R : Rendering} (environ : Environ)
    (logger : option Logger) (cls : string) (attrs : list (string * PyObj))
    (flag : PyObj) (log : Log) :
  dict_get "success" attrs = Some flag ->
  truthy flag = true ->
  log_error environ logger (Obj (PyInstance cls attrs)) log
  = (Returned (Result_fail (Some (ValidationError validation_title
       (Some "Expected failure result but got success result!")
       [Obj (PyInstance cls attrs)]))), log).
Proof.
  intros Hget Htrue.
  unfold log_error, def_result, try_func, bind, get_success, getattr, ret.
  rewrite Hget, Htrue. reflexivity.
Qed.

Lemma log_error_duck_typed_success_witness :
  dict_get "success" [("name", PyStr "job"); ("success", PyInt 1)] = Some (PyInt 1) /\
  truthy (PyInt 1) = true /\
  log_error (R := sample_rendering) no_environ (Some root_logger)
      (Obj (PyInstance "Job" [("name", PyStr "job"); ("success", PyInt 1)])) []
  = (Returned (Result_fail (Some (ValidationError validation_title
       (Some "Expected failure result but got success result!")
       [Obj (PyInstance "Job" [("name", PyStr "job"); ("success", PyInt 1)])]))), []).
Proof.
  split; [reflexivity|]. split; [reflexivity|].
  apply (log_error_duck_typed_success (R := sample_rendering) no_environ
           (Some root_logger) "Job" [("name", PyStr "job"); ("success", PyInt 1)]
           (PyInt 1) []); reflexivity.
Defined.

(** X5. An argument without an attribute [success], [None] and the other
    atoms included, makes [log_error] return the failure made from the
    [AttributeError] that names the type and the attribute; nothing is
    logged. *)
Theorem log_error_without_success_attribute {R : Rendering} (environ : Environ)
    (logger : option Logger) (o : PyObj) (log : Log) :
  match o with
  | PyInstance _ attrs => dict_get "success" attrs = None
  | _ => True
  end ->
  log_error environ logger (Obj o) log
  = (Returned (Result_fail (Some (ExceptionError
       (AttributeError (type_name o) "success")))), log).
Proof.
  intros Hno.
  unfold log_error, def_result, try_func, bind, get_success, getattr, raise.
  destruct o as [| b | z | s | cls attrs]; try reflexivity.
  rewrite Hno. reflexivity.
Qed.

Lemma log_error_without_success_attribute_witness :
  dict_get "success" [("prop1", PyStr "prop1"); ("prop2", PyStr "prop2")] = None /\
  log_error (R := sample_rendering) no_environ (Some root_logger) (Obj Fake) []
  = (Returned (Result_fail (Some (ExceptionError
       (AttributeError "Fake" "success")))), []).
Proof.
  split; [reflexivity|].
  apply (log_error_without_success_attribute (R := sample_rendering) no_environ
           (Some root_logger) Fake []).
  reflexivity.
Defined.

(** ** What the result logger returns and writes *)


(** X6. With a logger, whatever result goes in, what [log_result] returns
    is a success carrying no value: a failure never comes back as a
    failure.  Handing the returned result to [log_result] again logs nothing
    more and returns it unchanged. *)
Theorem log_result_returns_quiet_success {R : Rendering} (environ : Environ)
    (logger : Logger) (r : Result) (log : Log) :
  exists r1 log1,
    log_result environ (Some logger) (Res r) log = (Returned r1, log1)
    /\ success r1 = true
    /\ value r1 = PyNone
    /\ log_result environ (Some logger) (Res r1) log1 = (Returned r1, log1).
Proof.
  destruct (get_support_message_total environ) as [text Ht].
  destruct (success r) eqn:Hs.
  - rewrite (log_result_on_success environ logger r log Hs).
    destruct (is_not_None (value r)) eqn:Hv.
    + eexists _, _. split; [reflexivity|].
      repeat split.
    + eexists _, _. split; [reflexivity|].
      split; [exact Hs|].
      split; [destruct (value r); [reflexivity | discriminate ..]|].
      rewrite (log_result_on_success environ logger r log Hs), Hv. reflexivity.
  - rewrite (log_result_on_failure environ (Some logger) r log Hs).
    rewrite (log_error_on_failure environ logger r log text Hs Ht).
    eexists _, _. split; [reflexivity|].
    repeat split.
Qed.

(** X7. For every result, with a logger or without, [log_result] keeps
    every record logged before it and adds at most two, each at info or at
    error level. *)
Theorem log_result_appends_at_most_two {R : Rendering} (environ : Environ)
    (logger : option Logger) (r : Result) (log : Log) :
  exists r' extra,
    log_result environ logger (Res r) log = (Returned r', (log ++ extra)%list)
    /\ (length extra <= 2)%nat
    /\ Forall (fun rec => levelno rec = INFO \/ levelno rec = ERROR) extra.
Proof.
  destruct (get_support_message_total environ) as [text Ht].
  destruct logger as [logger|].
  - destruct (success r) eqn:Hs.
    + rewrite (log_result_on_success environ logger r log Hs).
      destruct (is_not_None (value r)).
      * eexists _, [_]. split; [reflexivity|].
        split; [simpl; lia|]. repeat constructor.
      * eexists _, []. rewrite app_nil_r. split; [reflexivity|].
        split; [simpl; lia | constructor].
    + rewrite (log_result_on_failure environ (Some logger) r log Hs).
      rewrite (log_error_on_failure environ logger r log text Hs Ht).
      eexists _, [_; _]. split; [reflexivity|].
      split; [simpl; lia|].
      constructor; [now right|]. constructor; [now left | constructor].
  - destruct r as [s d v].
    destruct s; destruct v;
      (eexists _, []; rewrite app_nil_r;
       split; [reflexivity | split; [simpl; lia | constructor]]).
Qed.

(** X8. An exit code turned into a result and handed to [log_result]:
    code 0 logs nothing, every other code logs the two lines of
    [log_error]; in both cases what comes back is the same success with no
    value, so the code cannot be read from it. *)
Theorem log_result_of_exit_code {R : Rendering} (environ : Environ)
    (logger : Logger) (code : Z) (log : Log) :
  exists extra,
    (r <- convert_code_to_result code ;; log_result environ (Some logger) (Res r)) log
    = (Returned (Result_ok PyNone), (log ++ extra)%list)
    /\ length extra = if (code =? 0)%Z then 0%nat else 2%nat.
Proof.
  destruct (get_support_message_total environ) as [text Ht].
  unfold bind at 1.
  unfold convert_code_to_result, def_result, try_func.
  destruct (code =? 0)%Z; unfold ret at 1; cbn [to_result].
  - rewrite log_result_on_success by reflexivity. cbn.
    exists []. rewrite app_nil_r. split; reflexivity.
  - rewrite log_result_on_failure by reflexivity.
    rewrite (log_error_on_failure environ logger
               (Result_fail (Some (new_FailResult code))) log text eq_refl Ht).
    eexists. split; reflexivity.
Qed.

(** X9. The converter loses nothing: two codes that give the same result
    are the same code. *)
Theorem convert_code_to_result_injective (code1 code2 : Z) (log : Log) :
  convert_code_to_result code1 log = convert_code_to_result code2 log ->
  code1 = code2.
Proof.
  unfold convert_code_to_result, def_result, try_func, ret, new_FailResult.
  destruct (Z.eqb_spec code1 0) as [E1|N1];
    destruct (Z.eqb_spec code2 0) as [E2|N2]; cbn; intros E.
  - congruence.
  - discriminate E.
  - discriminate E.
  - now inversion E.
Qed.

Lemma convert_code_to_result_injective_witness :
  convert_code_to_result (-3) [] = convert_code_to_result (-3) [] /\ (-3 = -3)%Z.
Proof.
  split; [reflexivity|].
  apply (convert_code_to_result_injective (-3) (-3) []).
  reflexivity.
Defined.



(** ** The support message on other objects *)

(** X11. [_get_support_message] reads five attributes by name and nothing
    else: when the object has them and [str] can format their values, the
    class of the object, the order of its attributes and any further
    attribute do not matter, and a value that is not a string is shown as
    [str] gives it. *)
Theorem support_message_reads_five_attributes {R : Rendering}
    (cls : string) (attrs : list (string * PyObj))
    (maintainer docker_version build_date vcs_url bug_report : PyObj)
    (m v b u g : string) (log : Log) :
  dict_get "maintainer" attrs = Some maintainer -> py_str maintainer = Returned m ->
  dict_get "docker_version" attrs = Some docker_version ->
  py_str docker_version = Returned v ->
  dict_get "build_date" attrs = Some build_date -> py_str build_date = Returned b ->
  dict_get "vcs_url" attrs = Some vcs_url -> py_str vcs_url = Returned u ->
  dict_get "bug_report" attrs = Some bug_report -> py_str bug_report = Returned g ->
  _get_support_message (PyInstance cls attrs) log
  = (Returned (Result_ok (PyStr (
       "Support:" ++ LF ++
       TAB ++ "Maintainer: " ++ m ++ LF ++
       TAB ++ "Docker Version: " ++ v ++ LF ++
       TAB ++ "Build Date: " ++ b ++ LF ++
       TAB ++ "Repository: " ++ u ++ LF ++
       TAB ++ "Report Bug: " ++ g ++ LF))), log).
Proof.
  intros H1 S1 H2 S2 H3 S3 H4 S4 H5 S5.
  unfold _get_support_message, def_result, try_func, bind, getattr, format_value, ret.
  rewrite H1, S1, H2, S2, H3, S3, H4, S4, H5, S5. reflexivity.
Qed.

Lemma support_message_reads_five_attributes_witness :
  _get_support_message (R := sample_rendering)
    (PyInstance "Settings"
       [ ("bug_report", PyStr "issues"); ("vcs_url", PyStr "repo");
         ("name", PyStr "v8"); ("build_date", PyNone);
         ("docker_version", PyInt 11); ("maintainer", PyStr "me") ]) []
  = (Returned (Result_ok (PyStr (
       "Support:" ++ LF ++
       TAB ++ "Maintainer: me" ++ LF ++
       TAB ++ "Docker Version: 11" ++ LF ++
       TAB ++ "Build Date: None" ++ LF ++
       TAB ++ "Repository: repo" ++ LF ++
       TAB ++ "Report Bug: issues" ++ LF))), []).
Proof.
  apply (support_message_reads_five_attributes (R := sample_rendering) "Settings"
           [ ("bug_report", PyStr "issues"); ("vcs_url", PyStr "repo");
             ("name", PyStr "v8"); ("build_date", PyNone);
             ("docker_version", PyInt 11); ("maintainer", PyStr "me") ]
           (PyStr "me") (PyInt 11) PyNone (PyStr "repo") (PyStr "issues")
           "me" "11" "None" "repo" "issues" []);
    reflexivity.
Defined.



(** ** The properties of an object, at the edges *)

(** X13. [log_class_properties] writes all or nothing: whatever the logger,
    the object and the message, either it returns a failure and the log is
    as it was, or it returns a success with no value and the log has
    exactly one more record, at the level asked for. *)
Theorem log_class_properties_all_or_nothing {R : Rendering}
    (logger : option Logger) (level : Z) (class_object message : PyObj) (log : Log) :
  exists r log',
    log_class_properties logger level class_object message log = (Returned r, log')
    /\ ((success r = false /\ log' = log)
        \/ (success r = true /\ value r = PyNone /\
            exists text, log' = (log ++ [mkLogRecord level (PyStr text)])%list)).
Proof.
  unfold log_class_properties, def_result, try_func.
  unfold bind at 1.
  destruct (title_line_keeps_log message log) as [[start|e] Estart]; rewrite Estart;
    [| eexists _, _; split; [reflexivity | left; split; reflexivity]].
  unfold bind at 1.
  destruct class_object as [| b | z | s | cls attrs];
    try (eexists _, _; split; [reflexivity | left; split; reflexivity]).
  unfold vars, ret at 1. unfold bind at 1.
  destruct (add_properties_keeps_log attrs start log) as [[text|e] Eloop]; rewrite Eloop;
    [| eexists _, _; split; [reflexivity | left; split; reflexivity]].
  destruct logger as [logger|]; unfold bind, ret; cbn [logger_log emit raise].
  - eexists _, _. split; [reflexivity|].
    right. repeat split. eexists. reflexivity.
  - eexists _, _. split; [reflexivity | left; split; reflexivity].
Qed.

(** X14. A message that is falsy, [None] or the empty string or 0 or
    [False], puts no title line and is not formatted: when [str] can format
    the values, the text is the property lines alone.  For an object without
    attributes that text is empty, and the one call to the logger is still
    made. *)
Theorem log_class_properties_falsy_message {R : Rendering}
    (logger : Logger) (level : Z) (cls : string) (attrs : list (string * PyObj))
    (message : PyObj) (log : Log) :
  truthy message = false ->
  forallb (fun item => can_str (snd item)) attrs = true ->
  log_class_properties (Some logger) level (PyInstance cls attrs) message log
    = (Returned (Result_ok PyNone),
       (log ++ [mkLogRecord level (PyStr (join (map property_line attrs)))])%list)
  /\ log_class_properties (Some logger) level (PyInstance cls []) message log
    = (Returned (Result_ok PyNone),
       (log ++ [mkLogRecord level (PyStr EmptyString)])%list).
Proof.
  intros Hfalse Hattrs.
  unfold log_class_properties, def_result, try_func.
  unfold bind at 1. unfold title_line. rewrite Hfalse. unfold ret at 1.
  unfold bind at 1. unfold vars, ret at 1.
  unfold bind at 1. rewrite (add_properties_rendered attrs _ log Hattrs).
  split; reflexivity.
Qed.

Lemma log_class_properties_falsy_message_witness :
  log_class_properties (R := sample_rendering) (Some root_logger) INFO Fake
      (PyStr EmptyString) []
    = (Returned (Result_ok PyNone),
       [mkLogRecord INFO (PyStr (
          TAB ++ "prop1: prop1" ++ LF ++ TAB ++ "prop2: prop2" ++ LF))])
  /\ log_class_properties (R := sample_rendering) (Some root_logger) INFO
      (PyInstance "Fake" []) (PyStr EmptyString) []
    = (Returned (Result_ok PyNone), [mkLogRecord INFO (PyStr EmptyString)]).
Proof.
  apply (log_class_properties_falsy_message (R := sample_rendering) root_logger INFO
           "Fake" [("prop1", PyStr "prop1"); ("prop2", PyStr "prop2")]
           (PyStr EmptyString) []); reflexivity.
Defined.

(** X15. Adding attributes to an object adds their lines at the end of the
    text and changes nothing before: when the call for the attributes
    [attrs] logs a text and [str] can format the values of [more], the call
    for [attrs] followed by [more] logs that text followed by the lines of
    [more]. *)
Theorem log_class_properties_extends {R : Rendering}
    (logger : Logger) (level : Z) (cls : string)
    (attrs more : list (string * PyObj)) (message : PyObj) (log : Log)
    (text : string) :
  log_class_properties (Some logger) level (PyInstance cls attrs) message log
    = (Returned (Result_ok PyNone), (log ++ [mkLogRecord level (PyStr text)])%list) ->
  forallb (fun item => can_str (snd item)) more = true ->
  log_class_properties (Some logger) level (PyInstance cls (attrs ++ more)) message log
    = (Returned (Result_ok PyNone),
       (log ++ [mkLogRecord level
                  (PyStr (text ++ join (map property_line more)))])%list).
Proof.
  intros Hcall Hmore.
  unfold log_class_properties, def_result, try_func in *.
  unfold bind at 1. unfold bind at 1 in Hcall.
  destruct (title_line_keeps_log message log) as [[start|e] Estart];
    rewrite Estart in *; [|discriminate Hcall].
  unfold bind at 1. unfold bind at 1 in Hcall.
  unfold vars, ret at 1. unfold vars, ret at 1 in Hcall.
  unfold bind at 1. unfold bind at 1 in Hcall.
  rewrite add_properties_app.
  destruct (add_properties_keeps_log attrs start log) as [[done|e] Eloop];
    rewrite Eloop in *; [|discriminate Hcall].
  rewrite (add_properties_rendered more done log Hmore).
  unfold bind, ret in *. cbn [logger_log emit] in *.
  inversion Hcall as [Hlog].
  apply app_inv_head in Hlog. inversion Hlog; subst text.
  reflexivity.
Qed.

Lemma log_class_properties_extends_witness :
  log_class_properties (R := sample_rendering) (Some root_logger) INFO
      (PyInstance "Fake" ([("prop1", PyStr "prop1")] ++ [("prop2", PyStr "prop2")]))
      (PyStr "message") []
    = (Returned (Result_ok PyNone),
       [mkLogRecord INFO
          (PyStr (("message:" ++ LF ++ TAB ++ "prop1: prop1" ++ LF)
                  ++ join (map (property_line (R := sample_rendering))
                             [("prop2", PyStr "prop2")])))]).
Proof.
  apply (log_class_properties_extends (R := sample_rendering) root_logger INFO "Fake"
           [("prop1", PyStr "prop1")] [("prop2", PyStr "prop2")] (PyStr "message") []
           ("message:" ++ LF ++ TAB ++ "prop1: prop1" ++ LF)); reflexivity.
Defined.

(** ** The table of recommended options *)

(** X16. The table has eleven flags, all different, so that no item of the
    literal hides another; every flag starts with two dashes, and looking a
    flag up gives the description written beside it. *)
Theorem D8_Recommended_OPTIONS_lookup :
  length D8_Recommended_OPTIONS = 11%nat
  /\ NoDup (map fst D8_Recommended_OPTIONS)
  /\ Forall (fun item =>
               options_get (fst item) D8_Recommended_OPTIONS = Some (snd item)
               /\ prefix "--" (fst item) = true)
       D8_Recommended_OPTIONS.
Proof.
  split; [reflexivity|]. split.
  - unfold D8_Recommended_OPTIONS. cbn [map fst].
    repeat (constructor; [cbn; intuition discriminate|]).
    constructor.
  - unfold D8_Recommended_OPTIONS.
    repeat (constructor; [split; reflexivity|]).
    constructor.
Qed.
